(** * Quiz bot (src/main.py): navigation handlers, tokens and keyboards

    A shallow embedding of the callback handlers of [src/main.py] and the
    properties of the question-navigation flow.

    Modelling conventions.
    - A Python [str] is a list of Unicode code points ([list N]), so that
      [len], slicing and [==] count and compare code points as Python does.
      Literals of the source are written as UTF-8 Rocq strings and decoded
      by [lit].
    - A Python [int] is a [Z].
    - The transport (aiogram) is an effect: a handler is a computation in
      the monad [M], which threads the per-conversation FSM data, logs the
      calls made on the callback ([edit_text], [answer], ...) and may raise
      a Python exception.
    - The question bank [questions_data] is a list of dicts.  A dict of the
      bank is modelled with the shape of the bank file: text-valued keys
      ([question<n>], [correct_answer]) and the [answers] list of texts. *)

From Stdlib Require Import ZArith NArith Decimal DecimalZ.
From stdpp Require Import gmap list strings fin_maps.

Local Open Scope Z_scope.

(** ** Python strings *)

Abbreviation str := (list N).

Module Utf8.

(** Continuation byte payload (low six bits). *)
Definition cont (b : N) : N := N.land b 63.

Fixpoint decode (bs : list N) : list N :=
  match bs with
  | [] => []
  | b0 :: r0 =>
      if (b0 <? 128)%N then b0 :: decode r0
      else if (b0 <? 224)%N then
        match r0 with
        | b1 :: r1 => (N.land b0 31 * 64 + cont b1)%N :: decode r1
        | _ => [b0]
        end
      else if (b0 <? 240)%N then
        match r0 with
        | b1 :: b2 :: r2 =>
            ((N.land b0 15 * 64 + cont b1) * 64 + cont b2)%N :: decode r2
        | _ => [b0]
        end
      else
        match r0 with
        | b1 :: b2 :: b3 :: r3 =>
            (((N.land b0 7 * 64 + cont b1) * 64 + cont b2) * 64 + cont b3)%N
              :: decode r3
        | _ => [b0]
        end
  end.

End Utf8.

(** A literal of the source, as code points. *)
Definition lit (s : string) : str :=
  Utf8.decode (map Ascii.N_of_ascii (String.list_ascii_of_string s)).

(** ["\n"] *)
Definition nl : str := [10%N].

Definition underscore : N := 95%N.

(** ** Python exceptions and results *)

Inductive exn : Type :=
| ValueError    (* int() on a text that is not a number *)
| IndexError.   (* list index out of range *)

Inductive result (A : Type) : Type :=
| Ok (a : A)
| Raise (e : exn).
Arguments Ok {A} a.
Arguments Raise {A} e.

Definition result_bind {A B} (r : result A) (k : A → result B) : result B :=
  match r with
  | Ok a => k a
  | Raise e => Raise e
  end.

(** ** Python primitives used by the handlers *)

Module Py.

(** [s.split(sep)] for a one-character separator. *)
Fixpoint split (sep : N) (s : str) : list str :=
  match s with
  | [] => [[]]
  | c :: s' =>
      if (c =? sep)%N then [] :: split sep s'
      else match split sep s' with
           | p :: ps => (c :: p) :: ps
           | [] => [[c]]
           end
  end.

(** [l[i]], with Python's negative indices. *)
Definition index {A} (l : list A) (i : Z) : result A :=
  let n := Z.of_nat (length l) in
  let j := if i <? 0 then i + n else i in
  if (0 <=? j) && (j <? n) then
    match l !! Z.to_nat j with
    | Some a => Ok a
    | None => Raise IndexError
    end
  else Raise IndexError.

(** [s.startswith(p)] *)
Fixpoint startswith (p s : str) : bool :=
  match p, s with
  | [], _ => true
  | a :: p', b :: s' => (a =? b)%N && startswith p' s'
  | _ :: _, [] => false
  end.

(** [s[:n]] and [s[n:]] for [n >= 0] are [take n s] and [drop n s]. *)

Fixpoint str_of_uint (d : Decimal.uint) : str :=
  match d with
  | Decimal.Nil => []
  | Decimal.D0 d => 48%N :: str_of_uint d
  | Decimal.D1 d => 49%N :: str_of_uint d
  | Decimal.D2 d => 50%N :: str_of_uint d
  | Decimal.D3 d => 51%N :: str_of_uint d
  | Decimal.D4 d => 52%N :: str_of_uint d
  | Decimal.D5 d => 53%N :: str_of_uint d
  | Decimal.D6 d => 54%N :: str_of_uint d
  | Decimal.D7 d => 55%N :: str_of_uint d
  | Decimal.D8 d => 56%N :: str_of_uint d
  | Decimal.D9 d => 57%N :: str_of_uint d
  end.

(** [str(z)], also what an f-string does with an int: the decimal digits,
    no leading zero, a leading minus sign for a negative number. *)
Definition str_of_int (z : Z) : str :=
  match Z.to_int z with
  | Decimal.Pos d => str_of_uint d
  | Decimal.Neg d => 45%N :: str_of_uint d
  end.

Fixpoint uint_of_str (s : str) : option Decimal.uint :=
  match s with
  | [] => Some Decimal.Nil
  | c :: s' =>
      d ← uint_of_str s';
      if (c =? 48)%N then Some (Decimal.D0 d)
      else if (c =? 49)%N then Some (Decimal.D1 d)
      else if (c =? 50)%N then Some (Decimal.D2 d)
      else if (c =? 51)%N then Some (Decimal.D3 d)
      else if (c =? 52)%N then Some (Decimal.D4 d)
      else if (c =? 53)%N then Some (Decimal.D5 d)
      else if (c =? 54)%N then Some (Decimal.D6 d)
      else if (c =? 55)%N then Some (Decimal.D7 d)
      else if (c =? 56)%N then Some (Decimal.D8 d)
      else if (c =? 57)%N then Some (Decimal.D9 d)
      else None
  end.

(** The ASCII decimal digits. *)
Definition is_digit (c : N) : Prop := (48 ≤ c ≤ 57)%N.

(** ASCII white space, which [int] skips on both sides. *)
Definition is_space (c : N) : bool :=
  (c =? 32)%N || ((9 <=? c)%N && (c <=? 13)%N).

Fixpoint lstrip (s : str) : str :=
  match s with
  | c :: s' => if is_space c then lstrip s' else s
  | [] => []
  end.

Definition strip (s : str) : str := reverse (lstrip (reverse (lstrip s))).

(** [int(s)] in base ten: optional white space around an optional sign
    and a non-empty run of ASCII digits; anything else raises
    [ValueError].  (Python also takes non-ASCII decimal digits and white
    space, and single underscores between digits; the bot never builds
    such a token and the model rejects them.) *)
Definition int (s : str) : result Z :=
  let t := strip s in
  let '(negative, ds) :=
    match t with
    | 45%N :: r => (true, r)
    | 43%N :: r => (false, r)
    | _ => (false, t)
    end in
  match ds with
  | [] => Raise ValueError
  | _ =>
      match uint_of_str ds with
      | Some d => Ok (if negative : bool then - Z.of_uint d else Z.of_uint d)
      | None => Raise ValueError
      end
  end.

End Py.

(** ** Telegram objects *)

Record InlineKeyboardButton : Type := {
  text : str;
  callback_data : str;
}.

(** [InlineKeyboardMarkup(inline_keyboard=rows)]: the rows of buttons. *)
Abbreviation InlineKeyboardMarkup := (list (list InlineKeyboardButton)).

(** The calls a handler makes on the transport, in the order it makes them. *)
Inductive event : Type :=
| edit_text (body : str) (reply_markup : option InlineKeyboardMarkup)
    (parse_mode : option str)            (* callback.message.edit_text *)
| message_answer (body : str) (reply_markup : option InlineKeyboardMarkup)
    (parse_mode : option str)            (* message.answer: a new message *)
| callback_answer (notice : option str)  (* callback.answer *)
| sleep (millis : N).                    (* asyncio.sleep, in milliseconds *)

(** ** The per-conversation FSM data ([FSMContext]) *)

Inductive data_value : Type :=
| DInt (z : Z)
| DStr (s : str).

#[global] Instance exn_eq_dec : EqDecision exn.
Proof. solve_decision. Defined.
#[global] Instance result_eq_dec {A} `{EqDecision A} : EqDecision (result A).
Proof. solve_decision. Defined.
#[global] Instance button_eq_dec : EqDecision InlineKeyboardButton.
Proof. solve_decision. Defined.
#[global] Instance event_eq_dec : EqDecision event.
Proof. solve_decision. Defined.
#[global] Instance data_value_eq_dec : EqDecision data_value.
Proof. solve_decision. Defined.

Abbreviation FSMData := (gmap string data_value).

(** ** The handler monad: FSM data in and out, transport calls logged,
       Python exceptions propagated *)

Definition M (A : Type) : Type := FSMData → result A * FSMData * list event.

#[global] Instance result_ret : MRet result := λ A a, Ok a.
#[global] Instance result_mbind : MBind result := λ A B k r, result_bind r k.

#[global] Instance M_ret : MRet M := λ A a σ, (Ok a, σ, []).
#[global] Instance M_bind : MBind M := λ A B k m σ,
  match m σ with
  | (Ok a, σ1, t1) => let '(r, σ2, t2) := k a σ1 in (r, σ2, t1 ++ t2)
  | (Raise e, σ1, t1) => (Raise e, σ1, t1)
  end.

Definition emit (e : event) : M () := λ σ, (Ok (), σ, [e]).
Definition lift {A} (r : result A) : M A := λ σ, (r, σ, []).

(** [state.update_data(k1=v1, ...)] *)
Definition update_data (kvs : list (string * data_value)) : M () :=
  λ σ, (Ok (), foldr (λ kv, <[kv.1 := kv.2]>) σ kvs, []).

(** [state.clear()] *)
Definition clear : M () := λ _, (Ok (), ∅, []).

(** ** The question bank *)

(** One dict of [QUESTIONS_BASE.json]: its text-valued keys and its
    [answers] list, each of which may be absent. *)
Record Question : Type := {
  text_fields : gmap str str;
  answers_field : option (list str);
}.

#[global] Instance question_eq_dec : EqDecision Question.
Proof. solve_decision. Defined.

(** [d.get(key, '')] on a text-valued key: the empty text when absent *)
Definition get_text (d : Question) (key : str) : str :=
  default [] (text_fields d !! key).

(** [d.get("answers", [])] *)
Definition get_answers (d : Question) : list str :=
  default [] (answers_field d).

(** A dict is falsy exactly when it has no key at all. *)
Definition is_empty_dict (d : Question) : bool :=
  bool_decide (text_fields d = ∅) && bool_decide (answers_field d = None).

(** The value [x] of an [Optional[Dict]] for which [if not x] does not
    fire: neither [None] nor the empty dict. *)
Definition truthy (x : option Question) : option Question :=
  match x with
  | Some d => if is_empty_dict d then None else Some d
  | None => None
  end.

(** ** Message texts and fixed buttons *)

Definition HTML : option str := Some (lit "HTML").

Definition MSG_WELCOME : str :=
  lit "👋 Добро пожаловать в бота для подготовки к экзамену!" ++ nl ++ nl
  ++ lit "Выберите действие:".
Definition MSG_CHOOSE_MODE : str := lit "Выберите режим тестирования:".
Definition MSG_CHOOSE_NUMBER : str := lit "Выберите номер вопроса (1-60):".
Definition MSG_NOT_FOUND : str := lit "❌ Вопрос не найден!".
Definition MSG_LOAD_ERROR : str := lit "❌ Ошибка загрузки вопроса!".
Definition MSG_ERROR : str := lit "❌ Ошибка!".
Definition MSG_CORRECT : str := lit "✅ Молодец! Правильный ответ!".
Definition MSG_COMPLETED : str :=
  lit "🎉 Поздравляем! Вы прошли все 60 вопросов!" ++ nl ++ nl
  ++ lit "Хотите начать заново?".

(** f"❌ Ошибочка!\n\n<b>Правильный ответ:</b>\n\n{correct_answer}" *)
Definition wrong_text (correct_answer : str) : str :=
  lit "❌ Ошибочка!" ++ nl ++ nl ++ lit "<b>Правильный ответ:</b>" ++ nl ++ nl
  ++ correct_answer.

Definition back_button : InlineKeyboardButton :=
  {| text := lit "🔙 Вернуться в меню"; callback_data := lit "back_to_menu" |}.

Definition continuous : str := lit "continuous".
Definition select : str := lit "select".

(** [range(start, stop, step)] for a positive step *)
Definition range (start stop step : nat) : list nat :=
  map (λ k, start + k * step)%nat (seq 0 ((stop - start + (step - 1)) / step)).

(** The two modes a token can carry. *)
Definition valid_mode (mode : str) : Prop := mode = continuous ∨ mode = select.

(** ** Keyboards (no access to the bank) *)

(** The button label of a choice, lines 64-69. *)
Definition button_text (answer : str) : str :=
  if (length answer <=? 64)%nat then answer
  else take 61 answer ++ lit "...".

(** f"answer_{question_num}_{idx}_{mode}" *)
Definition answer_token (question_num idx : Z) (mode : str) : str :=
  lit "answer_" ++ Py.str_of_int question_num ++ lit "_"
  ++ Py.str_of_int idx ++ lit "_" ++ mode.

Definition create_answer_keyboard (answers : list str) (question_num : Z)
    (mode : str) : InlineKeyboardMarkup :=
  imap (λ idx answer,
          [ {| text := button_text answer;
               callback_data := answer_token question_num (Z.of_nat idx) mode |} ])
       answers
  ++ [[back_button]].

Definition select_button (num : nat) : InlineKeyboardButton :=
  {| text := Py.str_of_int (Z.of_nat num);
     callback_data := lit "select_q_" ++ Py.str_of_int (Z.of_nat num) |}.

Definition create_question_selection_keyboard : InlineKeyboardMarkup :=
  map (λ i,
         flat_map (λ j, let num := (i + j + 1)%nat in
                        if (num <=? 60)%nat then [select_button num] else [])
                  (range 0 5 1))
      (range 0 60 5)
  ++ [[back_button]].

Definition create_main_menu_keyboard : InlineKeyboardMarkup :=
  [ [ {| text := lit "📝 Сплошная сессия"; callback_data := lit "mode_continuous" |} ];
    [ {| text := lit "🔍 Выбор вопроса"; callback_data := lit "mode_select" |} ] ].

(** ** The handlers *)

Section Bot.

(** The bank, loaded once at start-up and never changed. *)
Variable questions_data : list Question.

Definition get_question_by_number (question_num : Z) : option Question :=
  if (1 <=? question_num) && (question_num <=? Z.of_nat (length questions_data))
  then questions_data !! Z.to_nat (question_num - 1)
  else None.

Definition get_question_key (question_num : Z) : str :=
  lit "question" ++ Py.str_of_int question_num.

Definition cmd_start : M () :=
  emit (message_answer MSG_WELCOME
          (Some [[ {| text := lit "🚀 Начать решать";
                      callback_data := lit "start_test" |} ]])
          None).

Definition start_test : M () :=
  emit (edit_text MSG_CHOOSE_MODE (Some create_main_menu_keyboard) None);;
  emit (callback_answer None).

Definition back_to_menu : M () :=
  clear;;
  emit (edit_text MSG_CHOOSE_MODE (Some create_main_menu_keyboard) None);;
  emit (callback_answer None).

(** Lines 172-175: the message text of a question, with every choice in
    full. *)
Definition question_body (question_num : Z) (question_text : str)
    (answers : list str) : str :=
  foldl (λ body answer, body ++ (nl ++ answer ++ nl))
        (lit "❓ <b>Вопрос " ++ Py.str_of_int question_num
         ++ lit ":</b>" ++ nl ++ nl ++ question_text ++ nl ++ nl
         ++ (lit "<b>Варианты ответов:</b>" ++ nl))
        answers.

Definition show_question (question_num : Z) (mode : str) : M () :=
  match truthy (get_question_by_number question_num) with
  | None => emit (edit_text MSG_NOT_FOUND None None)
  | Some question_data =>
      let question_key := get_question_key question_num in
      let question_text := get_text question_data question_key in
      let answers := get_answers question_data in
      if bool_decide (question_text = []) || bool_decide (answers = []) then
        emit (edit_text MSG_LOAD_ERROR None None)
      else
        let body := question_body question_num question_text answers in
        let keyboard := create_answer_keyboard answers question_num mode in
        emit (edit_text body (Some keyboard) HTML)
  end.

Definition mode_continuous : M () :=
  update_data [("current_question", DInt 1); ("mode", DStr continuous)];;
  show_question 1 continuous;;
  emit (callback_answer None).

Definition mode_select : M () :=
  emit (edit_text MSG_CHOOSE_NUMBER (Some create_question_selection_keyboard)
          None);;
  emit (callback_answer None).

Definition select_question (data : str) : M () :=
  question_num ← lift (Py.index (Py.split underscore data) (-1) ≫= Py.int);
  update_data [("current_question", DInt question_num); ("mode", DStr select)];;
  show_question question_num select;;
  emit (callback_answer None).

(** Lines 188-191: the three fields of an answer token. *)
Definition answer_args (data : str) : result (Z * Z * str) :=
  let parts := Py.split underscore data in
  question_num ← Py.index parts 1 ≫= Py.int;
  answer_idx ← Py.index parts 2 ≫= Py.int;
  mode ← Py.index parts 3;
  mret (question_num, answer_idx, mode).

(** Lines 259-281 and, word for word again, 295-316: the result text goes
    out in one message, or in two when it is longer than 4000. *)
Definition edit_or_split (response_text : str)
    (keyboard : InlineKeyboardMarkup) : M () :=
  let max_length := 4000%nat in
  if (max_length <? length response_text)%nat then
    let part1 := take max_length response_text in
    let part2 := drop max_length response_text in
    emit (edit_text part1 (Some keyboard) HTML);;
    emit (message_answer part2 None HTML)
  else
    emit (edit_text response_text (Some keyboard) HTML).

Definition next_question_button (next_question : Z) : InlineKeyboardButton :=
  {| text := lit "➡️ Следующий вопрос";
     callback_data :=
       lit "next_question_" ++ Py.str_of_int next_question
       ++ lit "_continuous" |}.

Definition select_result_keyboard : InlineKeyboardMarkup :=
  [ [ {| text := lit "🔄 Выбрать другой вопрос";
         callback_data := lit "mode_select" |} ];
    [ back_button ] ].

Definition handle_answer (data : str) : M () :=
  '(question_num, answer_idx, mode) ← lift (answer_args data);
  match truthy (get_question_by_number question_num) with
  | None => emit (callback_answer (Some MSG_ERROR))
  | Some question_data =>
      let answers := get_answers question_data in
      let correct_answer := get_text question_data (lit "correct_answer") in
      if Z.of_nat (length answers) <=? answer_idx then
        emit (callback_answer (Some MSG_ERROR))
      else
        selected_answer ← lift (Py.index answers answer_idx);
        let is_correct := bool_decide (selected_answer = correct_answer) in
        emit (callback_answer None);;
        if bool_decide (mode = continuous) then
          if is_correct then
            emit (edit_text MSG_CORRECT None HTML);;
            let next_question := question_num + 1 in
            if next_question <=? 60 then
              emit (sleep 1500);;
              update_data [("current_question", DInt next_question)];;
              show_question next_question mode
            else
              emit (sleep 1500);;
              emit (edit_text MSG_COMPLETED (Some [[back_button]]) None)
          else
            let response_text := wrong_text correct_answer in
            let next_question := question_num + 1 in
            let buttons :=
              (if next_question <=? 60
               then [[next_question_button next_question]] else [])
              ++ [[back_button]] in
            edit_or_split response_text buttons
        else
          let response_text :=
            if is_correct then MSG_CORRECT else wrong_text correct_answer in
          edit_or_split response_text select_result_keyboard
  end.

Definition handle_next_question (data : str) : M () :=
  let parts := Py.split underscore data in
  next_question ← lift (Py.index parts 2 ≫= Py.int);
  mode ← lift (Py.index parts 3);
  update_data [("current_question", DInt next_question)];;
  show_question next_question mode;;
  emit (callback_answer None).

(** The callback-query router: the handlers in the order they are
    registered, the first whose filter accepts the data runs. *)
Definition dp_callback_query (data : str) : M () :=
  if bool_decide (data = lit "start_test") then start_test
  else if bool_decide (data = lit "back_to_menu") then back_to_menu
  else if bool_decide (data = lit "mode_continuous") then mode_continuous
  else if bool_decide (data = lit "mode_select") then mode_select
  else if Py.startswith (lit "select_q_") data then select_question data
  else if Py.startswith (lit "answer_") data then handle_answer data
  else if Py.startswith (lit "next_question_") data then handle_next_question data
  else mret ().

End Bot.

(** ** Reading the outcome of a handler *)

Definition outcome_of {A} (x : result A * FSMData * list event) : result A := x.1.1.
Definition data_of {A} (x : result A * FSMData * list event) : FSMData := x.1.2.
Definition events_of {A} (x : result A * FSMData * list event) : list event := x.2.

(** The run told the user that the answer was right: some message was
    replaced by the acknowledgment text. *)
Definition judged_correct {A} (x : result A * FSMData * list event) : Prop :=
  ∃ keyboard parse_mode, edit_text MSG_CORRECT keyboard parse_mode ∈ events_of x.

(** ** The selection screen as the specification words it *)

Fixpoint chunks_fuel {A} (fuel size : nat) (l : list A) : list (list A) :=
  match fuel, l with
  | S fuel', _ :: _ => take size l :: chunks_fuel fuel' size (drop size l)
  | _, _ => []
  end.

(** [l] cut into consecutive groups of [size], the last one possibly shorter. *)
Definition chunks {A} (size : nat) (l : list A) : list (list A) :=
  chunks_fuel (length l) size l.

(** [N] numbered pick buttons in ascending order, five per row, then the
    return-to-menu row. *)
Definition spec_selection_keyboard (N : nat) : InlineKeyboardMarkup :=
  chunks 5 (map select_button (seq 1 N)) ++ [[back_button]].

(** ** Small banks used to run the handlers *)

Definition mk_question (n : Z) (question_text : str) (answers : list str)
    (correct_answer : str) : Question :=
  {| text_fields := <[get_question_key n := question_text]>
                      {[ lit "correct_answer" := correct_answer ]};
     answers_field := Some answers |}.

Definition question1 : Question :=
  mk_question 1 (lit "Столица Франции?") [lit "Лион"; lit "Париж"] (lit "Париж").

Definition question2 : Question :=
  mk_question 2 (lit "2 + 2 = ?") [lit "4"; lit "5"; lit "22"] (lit "4").

(** A bank of one question, two choices, the second one correct. *)
Definition bank1 : list Question := [question1].

(** A bank of two questions. *)
Definition bank2 : list Question := [question1; question2].

(** A bank whose only question has a right answer of 4000 code points. *)
Definition question_long : Question :=
  mk_question 1 (lit "?") [lit "x"; replicate 4000 1072%N] (replicate 4000 1072%N).

Definition bank_long : list Question := [question_long].

(** A bank whose only record is the empty dict. *)
Definition bank_empty_dict : list Question :=
  [ {| text_fields := ∅; answers_field := None |} ].

(** * Properties *)

Example split_answer_token :
  Py.split underscore (lit "answer_12_0_continuous")
  = [lit "answer"; lit "12"; lit "0"; lit "continuous"].
Proof. reflexivity. Qed.

Example lit_counts_code_points : length (lit "❌ Ошибка!") = 9%nat.
Proof. reflexivity. Qed.

Example int_examples :
  Py.int (lit "-1") = Ok (-1) ∧ Py.int (lit " 007 ") = Ok 7
  ∧ Py.int [] = Raise ValueError ∧ Py.int (lit "1a") = Raise ValueError
  ∧ Py.str_of_int (-60) = lit "-60" ∧ Py.str_of_int 0 = lit "0".
Proof. repeat split; reflexivity. Qed.

(** ** Facts on the Python primitives *)

Section PyFacts.

Lemma split_no_sep (sep : N) (s : str) :
  sep ∉ s → Py.split sep s = [s].
Proof.
  induction s as [|c s IH]; intros Hs; [done|].
  apply not_elem_of_cons in Hs as [Hc Hs]. simpl.
  destruct (N.eqb_spec c sep) as [->|_]; [done|].
  by rewrite IH.
Qed.

Lemma split_app_sep (sep : N) (a b : str) :
  sep ∉ a → Py.split sep (a ++ sep :: b) = a :: Py.split sep b.
Proof.
  induction a as [|c a IH]; intros Ha; simpl.
  - by rewrite N.eqb_refl.
  - apply not_elem_of_cons in Ha as [Hc Ha].
    destruct (N.eqb_spec c sep) as [->|_]; [done|].
    by rewrite IH.
Qed.

Lemma str_of_uint_digits d : Forall Py.is_digit (Py.str_of_uint d).
Proof.
  induction d; simpl; constructor; try done; unfold Py.is_digit; lia.
Qed.

Lemma uint_of_str_of_uint d : Py.uint_of_str (Py.str_of_uint d) = Some d.
Proof. induction d; simpl; [done|..]; by rewrite IHd. Qed.

Lemma lstrip_no_space (s : str) :
  Forall (λ c, Py.is_space c = false) s → Py.lstrip s = s.
Proof. destruct 1 as [|c s Hc _]; simpl; [done|]. by rewrite Hc. Qed.

Lemma strip_no_space (s : str) :
  Forall (λ c, Py.is_space c = false) s → Py.strip s = s.
Proof.
  intros Hs. unfold Py.strip.
  rewrite (lstrip_no_space s Hs), lstrip_no_space, reverse_involutive; [done|].
  by apply Forall_reverse.
Qed.

Lemma digit_not_space c : Py.is_digit c → Py.is_space c = false.
Proof.
  unfold Py.is_digit, Py.is_space. intros H.
  destruct (N.eqb_spec c 32); [lia|].
  destruct (N.leb_spec 9 c), (N.leb_spec c 13); simpl; try done; lia.
Qed.

Lemma int_of_digits (d : Decimal.uint) :
  d ≠ Decimal.Nil →
  Py.int (Py.str_of_uint d) = Ok (Z.of_uint d)
  ∧ Py.int (45%N :: Py.str_of_uint d) = Ok (- Z.of_uint d).
Proof.
  intros Hd.
  assert (Hsp : Forall (λ c, Py.is_space c = false) (Py.str_of_uint d)).
  { eapply Forall_impl; [apply str_of_uint_digits|apply digit_not_space]. }
  unfold Py.int. rewrite !strip_no_space; [|by constructor|done].
  assert (Hne : Py.str_of_uint d ≠ []) by (by destruct d).
  pose proof (uint_of_str_of_uint d) as Hu.
  split.
  - destruct d; try done; simpl in *; by rewrite Hu.
  - destruct (Py.str_of_uint d) eqn:E; [done|]. by rewrite Hu.
Qed.

(** [int(str(z)) == z] *)
Lemma int_str_of_int (z : Z) : Py.int (Py.str_of_int z) = Ok z.
Proof.
  pose proof (DecimalZ.of_to z) as Hz. unfold Py.str_of_int.
  destruct (Z.to_int z) as [d|d] eqn:E; simpl in Hz; rewrite <- Hz.
  - apply int_of_digits. destruct z; simpl in E; inversion E; try done.
    apply DecimalPos.Unsigned.to_uint_nonnil.
  - apply int_of_digits. destruct z; simpl in E; inversion E.
    apply DecimalPos.Unsigned.to_uint_nonnil.
Qed.

Lemma str_of_int_no_underscore (z : Z) : underscore ∉ Py.str_of_int z.
Proof.
  unfold Py.str_of_int.
  assert (H : ∀ d, underscore ∉ Py.str_of_uint d).
  { intros d Hin. pose proof (str_of_uint_digits d) as Hd.
    rewrite Forall_forall in Hd. apply Hd in Hin.
    unfold Py.is_digit, underscore in Hin. lia. }
  destruct (Z.to_int z); [apply H|].
  apply not_elem_of_cons; split; [done|apply H].
Qed.

Lemma index_lookup {A} (l : list A) (i : nat) (a : A) :
  l !! i = Some a → Py.index l (Z.of_nat i) = Ok a.
Proof.
  intros Hi. pose proof (lookup_lt_Some _ _ _ Hi) as Hlt. unfold Py.index.
  destruct (Z.ltb_spec (Z.of_nat i) 0); [lia|].
  destruct (Z.leb_spec 0 (Z.of_nat i)); [|lia].
  destruct (Z.ltb_spec (Z.of_nat i) (Z.of_nat (length l))); [|lia].
  simpl. by rewrite Nat2Z.id, Hi.
Qed.

End PyFacts.

(** ** Action tokens *)

Lemma answer_args_token (question_num idx : Z) (mode : str) :
  underscore ∉ mode →
  answer_args (answer_token question_num idx mode) = Ok (question_num, idx, mode).
Proof.
  intros Hmode.
  assert (Htok : answer_token question_num idx mode
                 = lit "answer" ++ underscore :: (Py.str_of_int question_num
                     ++ underscore :: (Py.str_of_int idx ++ underscore :: mode))).
  { unfold answer_token.
    change (lit "answer_") with (lit "answer" ++ [underscore]).
    change (lit "_") with [underscore].
    by rewrite <- !app_assoc. }
  unfold answer_args. rewrite Htok.
  rewrite split_app_sep by compute_done.
  rewrite !split_app_sep by apply str_of_int_no_underscore.
  rewrite split_no_sep by done.
  change (Py.index _ 1) with (Ok (A:=str) (Py.str_of_int question_num)).
  change (Py.index _ 2) with (Ok (A:=str) (Py.str_of_int idx)).
  change (Py.index _ 3) with (Ok mode).
  simpl. unfold mbind, result_mbind, result_bind.
  by rewrite !int_str_of_int.
Qed.

Lemma valid_mode_no_underscore (mode : str) : valid_mode mode → underscore ∉ mode.
Proof. intros [->| ->]; compute_done. Qed.

(** C4.  For every question number, every position [idx] of a choice in the
    rendered list and every mode of the bot (continuous or select), the
    choice button at row [idx] of the answer keyboard carries the token
    [answer_<question_num>_<idx>_<mode>], and the answer handler's parsing
    of that token gives back exactly [(question_num, idx, mode)]. *)
Theorem answer_token_roundtrip (answers : list str) (question_num : Z)
    (mode : str) (idx : nat) (answer : str) :
  valid_mode mode →
  answers !! idx = Some answer →
  ∃ button,
    create_answer_keyboard answers question_num mode !! idx = Some [button]
    ∧ callback_data button = answer_token question_num (Z.of_nat idx) mode
    ∧ answer_args (callback_data button) = Ok (question_num, Z.of_nat idx, mode).
Proof.
  intros Hmode Hidx. eexists. split; [|split].
  - unfold create_answer_keyboard.
    rewrite lookup_app_l by (rewrite length_imap; by eapply lookup_lt_Some).
    rewrite list_lookup_imap, Hidx. reflexivity.
  - reflexivity.
  - simpl. by apply answer_args_token, valid_mode_no_underscore.
Qed.

Lemma answer_token_roundtrip_witness :
  ∃ button,
    create_answer_keyboard [lit "Лион"; lit "Париж"] 17 continuous !! 1%nat
      = Some [button]
    ∧ callback_data button = answer_token 17 1 continuous
    ∧ answer_args (callback_data button) = Ok (17, 1, continuous).
Proof.
  apply (answer_token_roundtrip [lit "Лион"; lit "Париж"] 17 continuous 1
           (lit "Париж")).
  - left; reflexivity.
  - reflexivity.
Defined.

(** ** Running the monad *)

Section Run.

Context {A B : Type}.

Lemma run_lift_ok (a : A) (k : A → M B) (σ : FSMData) :
  (lift (Ok a) ≫= k) σ = k a σ.
Proof.
  unfold mbind, M_bind, lift. by destruct (k a σ) as [[r σ'] t].
Qed.

Lemma run_lift_raise (e : exn) (k : A → M B) (σ : FSMData) :
  (lift (Raise e) ≫= k) σ = (Raise e, σ, []).
Proof. reflexivity. Qed.

Lemma run_emit (e : event) (k : () → M B) (σ : FSMData) :
  (emit e ≫= k) σ
  = (outcome_of (k () σ), data_of (k () σ), e :: events_of (k () σ)).
Proof.
  unfold mbind, M_bind, emit. by destruct (k () σ) as [[r σ'] t].
Qed.

Lemma run_update_data (kvs : list (string * data_value)) (k : () → M B)
    (σ : FSMData) :
  (update_data kvs ≫= k) σ = k () (foldr (λ kv, <[kv.1 := kv.2]>) σ kvs).
Proof.
  unfold mbind, M_bind, update_data.
  by destruct (k () _) as [[r σ'] t].
Qed.

End Run.

Lemma run_emit_last (e : event) (σ : FSMData) : emit e σ = (Ok (), σ, [e]).
Proof. reflexivity. Qed.

(** ** Showing a question *)

Section ShowQuestion.

Variable questions_data : list Question.

(** [show_question] makes exactly one transport call, never touches the
    FSM data and never raises. *)
Lemma show_question_one_call (question_num : Z) (mode : str) (σ : FSMData) :
  ∃ screen,
    show_question questions_data question_num mode σ = (Ok (), σ, [screen]).
Proof.
  unfold show_question.
  destruct (truthy _) as [qd|]; [|by eexists].
  destruct (_ || _); by eexists.
Qed.

Lemma show_question_pure (question_num : Z) (mode : str) (σ : FSMData) :
  show_question questions_data question_num mode σ
  = (Ok (), σ, events_of (show_question questions_data question_num mode σ)).
Proof.
  destruct (show_question_one_call question_num mode σ) as [e ->]. done.
Qed.

(** A question that is there and well formed is shown in full. *)
Lemma show_question_ok (question_num : Z) (mode : str) (σ : FSMData)
    (question_data : Question) :
  truthy (get_question_by_number questions_data question_num)
    = Some question_data →
  get_text question_data (get_question_key question_num) ≠ [] →
  get_answers question_data ≠ [] →
  show_question questions_data question_num mode σ
  = (Ok (), σ,
     [ edit_text
         (question_body question_num
            (get_text question_data (get_question_key question_num))
            (get_answers question_data))
         (Some (create_answer_keyboard (get_answers question_data)
                  question_num mode))
         HTML ]).
Proof.
  intros Hq Htext Hanswers. unfold show_question. rewrite Hq.
  rewrite !bool_decide_eq_false_2 by done. done.
Qed.

(** A number outside the bank gives the not-found message. *)
Lemma show_question_not_found (question_num : Z) (mode : str) (σ : FSMData) :
  question_num < 1 ∨ Z.of_nat (length questions_data) < question_num →
  show_question questions_data question_num mode σ
  = (Ok (), σ, [edit_text MSG_NOT_FOUND None None]).
Proof.
  intros Hn. unfold show_question, get_question_by_number.
  destruct (Z.leb_spec 1 question_num),
           (Z.leb_spec question_num (Z.of_nat (length questions_data)));
    simpl; try done; lia.
Qed.

End ShowQuestion.

(** ** Answering a question *)

Lemma edit_or_split_run (response_text : str) (keyboard : InlineKeyboardMarkup)
    (σ : FSMData) :
  edit_or_split response_text keyboard σ
  = (Ok (), σ,
     if (4000 <? length response_text)%nat then
       [ edit_text (take 4000 response_text) (Some keyboard) HTML;
         message_answer (drop 4000 response_text) None HTML ]
     else [ edit_text response_text (Some keyboard) HTML ]).
Proof. unfold edit_or_split. by destruct (_ <? _)%nat. Qed.

Section HandleAnswer.

Variable questions_data : list Question.

(** An answer token that parses, aimed at a question of the bank, with a
    choice index that Python's indexing accepts. *)
Variables (data : str) (σ : FSMData) (question_num answer_idx : Z) (mode : str).
Variables (question_data : Question) (selected_answer : str).
Hypothesis Hargs : answer_args data = Ok (question_num, answer_idx, mode).
Hypothesis Hquestion :
  truthy (get_question_by_number questions_data question_num) = Some question_data.
Hypothesis Hbelow : answer_idx < Z.of_nat (length (get_answers question_data)).
Hypothesis Hselected :
  Py.index (get_answers question_data) answer_idx = Ok selected_answer.

Ltac enter_handle_answer :=
  unfold handle_answer; rewrite Hargs, run_lift_ok; simpl; rewrite Hquestion;
  destruct (Z.leb_spec (Z.of_nat (length (get_answers question_data))) answer_idx);
  [lia|]; rewrite Hselected, run_lift_ok, run_emit.

Lemma continuous_correct_advance :
  mode = continuous →
  selected_answer = get_text question_data (lit "correct_answer") →
  question_num + 1 ≤ 60 →
  let σ' := <["current_question" := DInt (question_num + 1)]> σ in
  handle_answer questions_data data σ
  = (Ok (), σ',
     [callback_answer None; edit_text MSG_CORRECT None HTML; sleep 1500]
     ++ events_of (show_question questions_data (question_num + 1) continuous σ')).
Proof.
  intros -> Hsel Hn σ'. enter_handle_answer.
  rewrite !bool_decide_eq_true_2 by done. rewrite run_emit.
  destruct (Z.leb_spec (question_num + 1) 60); [|lia].
  rewrite run_emit, run_update_data. simpl. fold σ'.
  by rewrite show_question_pure.
Qed.

Lemma continuous_correct_completed :
  mode = continuous →
  selected_answer = get_text question_data (lit "correct_answer") →
  60 < question_num + 1 →
  handle_answer questions_data data σ
  = (Ok (), σ,
     [ callback_answer None; edit_text MSG_CORRECT None HTML; sleep 1500;
       edit_text MSG_COMPLETED (Some [[back_button]]) None ]).
Proof.
  intros -> Hsel Hn. enter_handle_answer.
  rewrite !bool_decide_eq_true_2 by done. rewrite run_emit.
  destruct (Z.leb_spec (question_num + 1) 60); [lia|].
  by rewrite run_emit.
Qed.

Lemma continuous_incorrect :
  mode = continuous →
  selected_answer ≠ get_text question_data (lit "correct_answer") →
  handle_answer questions_data data σ
  = (Ok (), σ,
     callback_answer None
     :: events_of
          (edit_or_split (wrong_text (get_text question_data (lit "correct_answer")))
             ((if question_num + 1 <=? 60
               then [[next_question_button (question_num + 1)]] else [])
              ++ [[back_button]]) σ)).
Proof.
  intros -> Hsel. enter_handle_answer.
  rewrite ?(bool_decide_eq_true_2 (continuous = continuous)) by done.
  rewrite (bool_decide_eq_false_2 (selected_answer = _)) by done.
  by rewrite edit_or_split_run.
Qed.

Lemma select_result :
  mode ≠ continuous →
  handle_answer questions_data data σ
  = (Ok (), σ,
     callback_answer None
     :: events_of
          (edit_or_split
             (if bool_decide (selected_answer = get_text question_data (lit "correct_answer"))
              then MSG_CORRECT else wrong_text (get_text question_data (lit "correct_answer")))
             select_result_keyboard σ)).
Proof.
  intros Hmode. enter_handle_answer.
  rewrite (bool_decide_eq_false_2 (mode = continuous)) by done.
  by rewrite edit_or_split_run.
Qed.

End HandleAnswer.

(** ** Continuous mode, right answer *)

(** C1 (amended).  In continuous mode a right answer to a question
    [question_num] of the bank is acknowledged and, after the pacing delay
    and with no further action of the user, followed up by comparing
    [question_num + 1] with the constant 60, not with the bank length:
    - below 60, the session's current question becomes [question_num + 1]
      and [show_question] is run for it in continuous mode, which shows
      question [question_num + 1] whenever the bank holds a well-formed
      record for it;
    - from 60 on, the completion screen is shown and the session is left
      as it is.
    For a bank of exactly 60 well-formed records this is the advance from
    [n < N] to [n + 1] and the completion at [n = N]. *)
Theorem continuous_correct_answer (questions_data : list Question)
    (data : str) (σ : FSMData) (question_num answer_idx : Z)
    (question_data : Question) (selected_answer : str) :
  answer_args data = Ok (question_num, answer_idx, continuous) →
  truthy (get_question_by_number questions_data question_num) = Some question_data →
  answer_idx < Z.of_nat (length (get_answers question_data)) →
  Py.index (get_answers question_data) answer_idx = Ok selected_answer →
  selected_answer = get_text question_data (lit "correct_answer") →
  let σ' := <["current_question" := DInt (question_num + 1)]> σ in
  let ack := [callback_answer None; edit_text MSG_CORRECT None HTML; sleep 1500] in
  (question_num < 60 →
     handle_answer questions_data data σ
     = (Ok (), σ',
        ack ++ events_of (show_question questions_data (question_num + 1)
                            continuous σ'))
     ∧ ∀ next_data,
         truthy (get_question_by_number questions_data (question_num + 1))
           = Some next_data →
         get_text next_data (get_question_key (question_num + 1)) ≠ [] →
         get_answers next_data ≠ [] →
         handle_answer questions_data data σ
         = (Ok (), σ',
            ack ++ [ edit_text
                       (question_body (question_num + 1)
                          (get_text next_data (get_question_key (question_num + 1)))
                          (get_answers next_data))
                       (Some (create_answer_keyboard (get_answers next_data)
                                (question_num + 1) continuous))
                       HTML ]))
  ∧ (60 ≤ question_num →
     handle_answer questions_data data σ
     = (Ok (), σ,
        ack ++ [edit_text MSG_COMPLETED (Some [[back_button]]) None])).
Proof.
  intros Hargs Hq Hbelow Hsel Hcorrect σ' ack. split.
  - intros Hn.
    pose proof (continuous_correct_advance questions_data data σ question_num
                  answer_idx continuous question_data selected_answer
                  Hargs Hq Hbelow Hsel eq_refl Hcorrect ltac:(lia)) as Hrun.
    split; [exact Hrun|].
    intros next_data Hnext Htext Hanswers. rewrite Hrun.
    by rewrite (show_question_ok _ _ _ _ next_data Hnext Htext Hanswers).
  - intros Hn.
    exact (continuous_correct_completed questions_data data σ question_num
             answer_idx continuous question_data selected_answer
             Hargs Hq Hbelow Hsel eq_refl Hcorrect ltac:(lia)).
Qed.

Lemma continuous_correct_answer_witness :
  handle_answer bank2 (lit "answer_1_1_continuous") ∅
  = (Ok (), <["current_question" := DInt 2]> ∅,
     [callback_answer None; edit_text MSG_CORRECT None HTML; sleep 1500]
     ++ [ edit_text
            (question_body 2 (get_text question2 (get_question_key 2))
               (get_answers question2))
            (Some (create_answer_keyboard (get_answers question2) 2 continuous))
            HTML ]).
Proof.
  refine (proj2 (proj1 (continuous_correct_answer bank2
                          (lit "answer_1_1_continuous") ∅ 1 1 question1
                          (lit "Париж") _ _ _ _ _) _) question2 _ _ _).
  - vm_compute; reflexivity.
  - vm_compute; reflexivity.
  - vm_compute; reflexivity.
  - vm_compute; reflexivity.
  - vm_compute; reflexivity.
  - lia.
  - vm_compute; reflexivity.
  - vm_compute; discriminate.
  - vm_compute; discriminate.
Defined.

(** C1, as stated, fails on a bank shorter than 60: a right answer to the
    last question [N = 1] does not complete the run; the handler moves the
    session on to question 2 and shows the not-found message. *)
Lemma continuous_last_question_counterexample :
  length bank1 = 1%nat
  ∧ handle_answer bank1 (lit "answer_1_1_continuous") ∅
    = (Ok (), {["current_question" := DInt 2]},
       [ callback_answer None; edit_text MSG_CORRECT None HTML; sleep 1500;
         edit_text MSG_NOT_FOUND None None ])
  ∧ edit_text MSG_COMPLETED (Some [[back_button]]) None
    ∉ events_of (handle_answer bank1 (lit "answer_1_1_continuous") ∅).
Proof. compute_done. Qed.

(** ** Judging an answer *)

Lemma wrong_text_head (correct_answer : str) :
  ∃ rest, wrong_text correct_answer = 10060%N :: rest.
Proof. exists (drop 1 (wrong_text correct_answer)). by vm_compute. Qed.

Lemma wrong_text_never_acknowledges (correct_answer : str)
    (keyboard : InlineKeyboardMarkup) (σ : FSMData)
    (keyboard' : option InlineKeyboardMarkup) (parse_mode : option str) :
  edit_text MSG_CORRECT keyboard' parse_mode
  ∉ events_of (edit_or_split (wrong_text correct_answer) keyboard σ).
Proof.
  rewrite edit_or_split_run. unfold events_of; simpl.
  destruct (wrong_text_head correct_answer) as [rest ->].
  destruct (_ <? _)%nat; intros Hin;
    repeat (apply elem_of_cons in Hin as [Hin|Hin]; [by inversion Hin|]);
    by apply elem_of_nil in Hin.
Qed.

(** C2.  For every answer token aimed at a question of the bank with an
    in-range choice index, the user is told the answer is right if and only
    if the selected choice is, code point for code point, the record's
    [correct_answer] text; hence when that text is none of the record's
    choices, no selection is ever judged right. *)
Theorem answer_judged_by_exact_equality (questions_data : list Question)
    (data : str) (σ : FSMData) (question_num answer_idx : Z) (mode : str)
    (question_data : Question) :
  answer_args data = Ok (question_num, answer_idx, mode) →
  truthy (get_question_by_number questions_data question_num) = Some question_data →
  0 ≤ answer_idx < Z.of_nat (length (get_answers question_data)) →
  ∃ selected_answer,
    get_answers question_data !! Z.to_nat answer_idx = Some selected_answer
    ∧ (judged_correct (handle_answer questions_data data σ)
       ↔ selected_answer = get_text question_data (lit "correct_answer"))
    ∧ (get_text question_data (lit "correct_answer") ∉ get_answers question_data →
       ¬ judged_correct (handle_answer questions_data data σ)).
Proof.
  intros Hargs Hq [Hlo Hhi].
  destruct (lookup_lt_is_Some_2 (get_answers question_data) (Z.to_nat answer_idx))
    as [selected_answer Hlookup]; [lia|].
  exists selected_answer.
  assert (Hsel : Py.index (get_answers question_data) answer_idx = Ok selected_answer).
  { rewrite <- (Z2Nat.id answer_idx) by done. by apply index_lookup. }
  assert (Hiff : judged_correct (handle_answer questions_data data σ)
                 ↔ selected_answer = get_text question_data (lit "correct_answer")).
  { destruct (decide (mode = continuous)) as [Hmode|Hmode];
      destruct (decide (selected_answer
                        = get_text question_data (lit "correct_answer")))
        as [Hc|Hc].
    - split; [done|intros _]. exists None, HTML.
      destruct (Z_le_gt_dec (question_num + 1) 60).
      + rewrite (continuous_correct_advance _ _ _ _ _ _ _ _ Hargs Hq Hhi Hsel)
          by done.
        unfold events_of; simpl. set_solver.
      + rewrite (continuous_correct_completed _ _ _ _ _ _ _ _ Hargs Hq Hhi Hsel)
          by (done || lia).
        unfold events_of; simpl. set_solver.
    - split; [|done]. intros (kb & pm & Hin). exfalso.
      rewrite (continuous_incorrect _ _ _ _ _ _ _ _ Hargs Hq Hhi Hsel) in Hin
        by done.
      unfold events_of at 1 in Hin; simpl in Hin.
      apply elem_of_cons in Hin as [Hin|Hin]; [by inversion Hin|].
      by eapply wrong_text_never_acknowledges.
    - split; [done|intros _]. exists (Some select_result_keyboard), HTML.
      rewrite (select_result _ _ _ _ _ _ _ _ Hargs Hq Hhi Hsel) by done.
      rewrite bool_decide_eq_true_2 by done.
      rewrite edit_or_split_run. unfold events_of; simpl.
      replace (4000 <? length MSG_CORRECT)%nat with false by (by vm_compute).
      set_solver.
    - split; [|done]. intros (kb & pm & Hin). exfalso.
      rewrite (select_result _ _ _ _ _ _ _ _ Hargs Hq Hhi Hsel) in Hin by done.
      rewrite bool_decide_eq_false_2 in Hin by done.
      unfold events_of at 1 in Hin; simpl in Hin.
      apply elem_of_cons in Hin as [Hin|Hin]; [by inversion Hin|].
      by eapply wrong_text_never_acknowledges. }
  split; [done|]. split; [done|].
  intros Hnone Hjudged. apply Hiff in Hjudged. apply Hnone. subst.
  by eapply list_elem_of_lookup_2.
Qed.

Lemma answer_judged_by_exact_equality_witness :
  ∃ selected_answer,
    get_answers question1 !! Z.to_nat 0 = Some selected_answer
    ∧ (judged_correct (handle_answer bank1 (lit "answer_1_0_select") ∅)
       ↔ selected_answer = get_text question1 (lit "correct_answer"))
    ∧ (get_text question1 (lit "correct_answer") ∉ get_answers question1 →
       ¬ judged_correct (handle_answer bank1 (lit "answer_1_0_select") ∅)).
Proof.
  apply (answer_judged_by_exact_equality bank1 (lit "answer_1_0_select") ∅
           1 0 select question1).
  - vm_compute; reflexivity.
  - vm_compute; reflexivity.
  - vm_compute. split; [discriminate|reflexivity].
Defined.

(** ** Continuous mode, wrong answer *)

Section NextQuestion.

Variable questions_data : list Question.

Lemma next_question_token_split (next_question : Z) :
  Py.split underscore (callback_data (next_question_button next_question))
  = [lit "next"; lit "question"; Py.str_of_int next_question; continuous].
Proof.
  change (callback_data (next_question_button next_question))
    with (lit "next" ++ underscore :: (lit "question" ++ underscore ::
            (Py.str_of_int next_question ++ underscore :: continuous))).
  rewrite !split_app_sep by (apply str_of_int_no_underscore || compute_done).
  by rewrite split_no_sep by compute_done.
Qed.

Lemma handle_next_question_run (next_question : Z) (σ : FSMData) :
  let σ' := <["current_question" := DInt next_question]> σ in
  handle_next_question questions_data
    (callback_data (next_question_button next_question)) σ
  = (Ok (), σ',
     events_of (show_question questions_data next_question continuous σ')
     ++ [callback_answer None]).
Proof.
  intros σ'. unfold handle_next_question.
  rewrite next_question_token_split.
  change (Py.index _ 2) with (Ok (A:=str) (Py.str_of_int next_question)).
  change (Py.index _ 3) with (Ok continuous).
  replace (Ok (Py.str_of_int next_question) ≫= Py.int) with (Ok next_question)
    by (symmetry; apply int_str_of_int).
  rewrite !run_lift_ok, run_update_data. simpl. fold σ'.
  destruct (show_question_one_call questions_data next_question continuous σ')
    as [screen Hscreen].
  unfold mbind, M_bind. by rewrite Hscreen.
Qed.

(** The router hands the token of the next-question button to
    [handle_next_question]. *)
Lemma next_question_token_routed (next_question : Z) :
  dp_callback_query questions_data
    (callback_data (next_question_button next_question))
  = handle_next_question questions_data
      (callback_data (next_question_button next_question)).
Proof.
  unfold dp_callback_query.
  rewrite !bool_decide_eq_false_2 by (intros H; discriminate H).
  reflexivity.
Qed.

End NextQuestion.

(** C3 (amended).  In continuous mode a wrong answer to a question
    [question_num] of the bank never advances by itself: the handler only
    acknowledges the press and puts up the result text (cut at 4000 when
    longer), without delay, without showing a question and without
    touching the session.  The result keyboard offers the next-question
    button exactly when [question_num < 60] (the constant, not the bank
    length) and only the return-to-menu button otherwise.  Pressing the
    next-question button is what sets the session's current question to
    [question_num + 1] and runs [show_question] for it in continuous
    mode. *)
Theorem continuous_incorrect_answer (questions_data : list Question)
    (data : str) (σ : FSMData) (question_num answer_idx : Z)
    (question_data : Question) (selected_answer : str) :
  answer_args data = Ok (question_num, answer_idx, continuous) →
  truthy (get_question_by_number questions_data question_num) = Some question_data →
  answer_idx < Z.of_nat (length (get_answers question_data)) →
  Py.index (get_answers question_data) answer_idx = Ok selected_answer →
  selected_answer ≠ get_text question_data (lit "correct_answer") →
  let response_text := wrong_text (get_text question_data (lit "correct_answer")) in
  let keyboard :=
    if question_num <? 60
    then [[next_question_button (question_num + 1)]; [back_button]]
    else [[back_button]] in
  handle_answer questions_data data σ
  = (Ok (), σ,
     callback_answer None
     :: (if (4000 <? length response_text)%nat then
           [ edit_text (take 4000 response_text) (Some keyboard) HTML;
             message_answer (drop 4000 response_text) None HTML ]
         else [ edit_text response_text (Some keyboard) HTML ]))
  ∧ ∀ σ0,
      let σ' := <["current_question" := DInt (question_num + 1)]> σ0 in
      dp_callback_query questions_data
        (callback_data (next_question_button (question_num + 1))) σ0
      = (Ok (), σ',
         events_of (show_question questions_data (question_num + 1) continuous σ')
         ++ [callback_answer None]).
Proof.
  intros Hargs Hq Hbelow Hsel Hwrong response_text keyboard. split.
  - rewrite (continuous_incorrect _ _ _ _ _ _ _ _ Hargs Hq Hbelow Hsel) by done.
    rewrite edit_or_split_run. unfold events_of; simpl.
    replace (_ ++ [[back_button]]) with keyboard; [done|].
    unfold keyboard.
    destruct (Z.ltb_spec question_num 60), (Z.leb_spec (question_num + 1) 60);
      try done; lia.
  - intros σ0 σ'. rewrite next_question_token_routed.
    apply handle_next_question_run.
Qed.

Lemma continuous_incorrect_answer_witness :
  handle_answer bank2 (lit "answer_1_0_continuous") ∅
  = (Ok (), ∅,
     [ callback_answer None;
       edit_text (wrong_text (lit "Париж"))
         (Some [[next_question_button 2]; [back_button]]) HTML ]).
Proof.
  refine (proj1 (continuous_incorrect_answer bank2 (lit "answer_1_0_continuous")
                   ∅ 1 0 question1 (lit "Лион") _ _ _ _ _)).
  - vm_compute; reflexivity.
  - vm_compute; reflexivity.
  - vm_compute; reflexivity.
  - vm_compute; reflexivity.
  - vm_compute; discriminate.
Defined.

(** C3, as stated, fails on a bank shorter than 60: after a wrong answer to
    the last question [N = 1] the result screen still offers the
    next-question button. *)
Lemma continuous_incorrect_last_counterexample :
  length bank1 = 1%nat
  ∧ handle_answer bank1 (lit "answer_1_0_continuous") ∅
    = (Ok (), ∅,
       [ callback_answer None;
         edit_text (wrong_text (lit "Париж"))
           (Some [[next_question_button 2]; [back_button]]) HTML ]).
Proof. compute_done. Qed.

(** ** Picking a question out of range *)

(** C5 (amended).  A pick token whose number [n] lies outside [1, N] makes
    the handler replace the screen by the not-found message, with no
    buttons, acknowledge the press and return without raising.  The
    session is not left as it was: before the lookup its current question
    is set to [n] and its mode to select; no other entry changes. *)
Theorem out_of_range_pick (questions_data : list Question) (data : str)
    (σ : FSMData) (question_num : Z) :
  Py.index (Py.split underscore data) (-1) ≫= Py.int = Ok question_num →
  question_num < 1 ∨ Z.of_nat (length questions_data) < question_num →
  select_question questions_data data σ
  = (Ok (),
     <["current_question" := DInt question_num]> (<["mode" := DStr select]> σ),
     [edit_text MSG_NOT_FOUND None None; callback_answer None]).
Proof.
  intros Hparse Hrange. unfold select_question.
  rewrite Hparse, run_lift_ok, run_update_data. simpl.
  unfold mbind at 1, M_bind.
  by rewrite show_question_not_found.
Qed.

Lemma out_of_range_pick_witness :
  select_question bank1 (lit "select_q_5") ∅
  = (Ok (), <["current_question" := DInt 5]> (<["mode" := DStr select]> ∅),
     [edit_text MSG_NOT_FOUND None None; callback_answer None]).
Proof.
  apply (out_of_range_pick bank1 (lit "select_q_5") ∅ 5).
  - vm_compute; reflexivity.
  - right. vm_compute; reflexivity.
Defined.

(** C5, as stated, fails: an out-of-range pick on a fresh session leaves a
    session that records question 5 in select mode. *)
Lemma out_of_range_pick_counterexample :
  ¬ (1 ≤ 5 ≤ Z.of_nat (length bank1))
  ∧ data_of (select_question bank1 (lit "select_q_5") ∅) ≠ ∅
  ∧ data_of (select_question bank1 (lit "select_q_5") ∅)
    = {[ "current_question" := DInt 5; "mode" := DStr select ]}.
Proof. compute_done. Qed.

(** ** Choice index out of range *)

(** A choice index at or beyond the end of the list is refused: the press
    is acknowledged with the error notice and nothing else happens. *)
Lemma answer_index_too_large (questions_data : list Question) (data : str)
    (σ : FSMData) (question_num answer_idx : Z) (mode : str)
    (question_data : Question) :
  answer_args data = Ok (question_num, answer_idx, mode) →
  truthy (get_question_by_number questions_data question_num) = Some question_data →
  Z.of_nat (length (get_answers question_data)) ≤ answer_idx →
  handle_answer questions_data data σ
  = (Ok (), σ, [callback_answer (Some MSG_ERROR)]).
Proof.
  intros Hargs Hq Hidx. unfold handle_answer.
  rewrite Hargs, run_lift_ok. simpl. rewrite Hq.
  by destruct (Z.leb_spec (Z.of_nat (length (get_answers question_data)))
                 answer_idx); [|lia].
Qed.

(** C6 at a negative choice index.  The guard of the handler only looks at
    the upper end.  On the two-question bank, the token
    [answer_1_-1_continuous] parses to choice index [-1], which is outside
    the two choices of question 1; the handler takes the last choice,
    judges it (right) and advances the session to question 2.  With
    [answer_1_-3_continuous] the indexing raises [IndexError] before any
    call on the transport: the user gets no notice at all. *)
Theorem negative_choice_index :
  answer_args (lit "answer_1_-1_continuous") = Ok (1, -1, continuous)
  ∧ length (get_answers question1) = 2%nat
  ∧ handle_answer bank2 (lit "answer_1_-1_continuous") ∅
    = (Ok (), {["current_question" := DInt 2]},
       [ callback_answer None; edit_text MSG_CORRECT None HTML; sleep 1500;
         edit_text
           (question_body 2 (get_text question2 (get_question_key 2))
              (get_answers question2))
           (Some (create_answer_keyboard (get_answers question2) 2 continuous))
           HTML ])
  ∧ handle_answer bank2 (lit "answer_1_-3_continuous") ∅
    = (Raise IndexError, ∅, []).
Proof. repeat split; by vm_compute. Qed.

(** ** Long result texts *)

(** C7.  Whenever an answer leads to a result screen (a wrong answer in
    continuous mode, any answer in the other mode), its body text [t] goes
    out as follows.  If [t] is longer than 4000, the current message is
    replaced by the first 4000 code points of [t], with the navigation
    keyboard, and the rest of [t] is sent as a new message without
    keyboard; the two parts put together are [t].  Otherwise the current
    message is replaced by [t], with the keyboard. *)
Theorem result_text_split (questions_data : list Question) (data : str)
    (σ : FSMData) (question_num answer_idx : Z) (mode : str)
    (question_data : Question) (selected_answer : str) :
  answer_args data = Ok (question_num, answer_idx, mode) →
  truthy (get_question_by_number questions_data question_num) = Some question_data →
  answer_idx < Z.of_nat (length (get_answers question_data)) →
  Py.index (get_answers question_data) answer_idx = Ok selected_answer →
  mode ≠ continuous
  ∨ selected_answer ≠ get_text question_data (lit "correct_answer") →
  let correct_answer := get_text question_data (lit "correct_answer") in
  let t :=
    if bool_decide (selected_answer = correct_answer)
    then MSG_CORRECT else wrong_text correct_answer in
  let keyboard :=
    if bool_decide (mode = continuous)
    then (if question_num + 1 <=? 60
          then [[next_question_button (question_num + 1)]] else [])
         ++ [[back_button]]
    else select_result_keyboard in
  ((4000 < length t)%nat →
     handle_answer questions_data data σ
     = (Ok (), σ,
        [ callback_answer None;
          edit_text (take 4000 t) (Some keyboard) HTML;
          message_answer (drop 4000 t) None HTML ])
     ∧ length (take 4000 t) = 4000%nat
     ∧ take 4000 t ++ drop 4000 t = t)
  ∧ ((length t ≤ 4000)%nat →
     handle_answer questions_data data σ
     = (Ok (), σ, [callback_answer None; edit_text t (Some keyboard) HTML])).
Proof.
  intros Hargs Hq Hbelow Hsel Hcase correct_answer t keyboard.
  assert (Hrun : handle_answer questions_data data σ
                 = (Ok (), σ,
                    callback_answer None :: events_of (edit_or_split t keyboard σ))).
  { unfold t, keyboard. destruct (decide (mode = continuous)) as [Hmode|Hmode].
    - destruct Hcase as [?|Hwrong]; [done|].
      rewrite (bool_decide_eq_true_2 _ Hmode), (bool_decide_eq_false_2 _ Hwrong).
      by apply (continuous_incorrect _ _ _ _ _ _ _ _ Hargs Hq Hbelow Hsel).
    - rewrite (bool_decide_eq_false_2 _ Hmode).
      by apply (select_result _ _ _ _ _ _ _ _ Hargs Hq Hbelow Hsel). }
  rewrite Hrun, edit_or_split_run. unfold events_of; simpl. split.
  - intros Hlong. destruct (Nat.ltb_spec 4000 (length t)); [|lia].
    split; [done|]. split; [|apply take_drop].
    rewrite length_take. lia.
  - intros Hshort. by destruct (Nat.ltb_spec 4000 (length t)); [lia|].
Qed.

Lemma result_text_split_witness :
  let t := wrong_text (replicate 4000 1072%N) in
  handle_answer bank_long (lit "answer_1_0_select") ∅
  = (Ok (), ∅,
     [ callback_answer None;
       edit_text (take 4000 t) (Some select_result_keyboard) HTML;
       message_answer (drop 4000 t) None HTML ])
  ∧ length (take 4000 t) = 4000%nat
  ∧ take 4000 t ++ drop 4000 t = t.
Proof.
  refine (proj1 (result_text_split bank_long (lit "answer_1_0_select") ∅ 1 0
                   select question_long (lit "x") _ _ _ _ _) _).
  - vm_compute; reflexivity.
  - vm_compute; reflexivity.
  - vm_compute; reflexivity.
  - vm_compute; reflexivity.
  - left. vm_compute; discriminate.
  - apply Nat.ltb_lt. vm_compute; reflexivity.
Defined.

(** The scenario of the specification: 4500 in, 4000 and 500 out. *)
Example split_4500 (keyboard : InlineKeyboardMarkup) :
  let t := replicate 4500 1072%N in
  edit_or_split t keyboard ∅
  = (Ok (), ∅,
     [ edit_text (replicate 4000 1072%N) (Some keyboard) HTML;
       message_answer (replicate 500 1072%N) None HTML ]).
Proof.
  intros t. rewrite edit_or_split_run.
  replace (4000 <? length t)%nat with true by (by vm_compute).
  unfold t. by rewrite take_replicate, drop_replicate.
Qed.

(** ** Choice buttons *)

Lemma foldl_append_choices (header : str) (answers : list str) :
  foldl (λ body answer, body ++ (nl ++ answer ++ nl)) header answers
  = header ++ concat (map (λ answer, nl ++ answer ++ nl) answers).
Proof.
  revert header. induction answers as [|answer answers IH]; intros header;
    cbn [foldl map concat].
  - by rewrite app_nil_r.
  - by rewrite IH, <- (app_assoc header).
Qed.

Lemma question_body_app (question_num : Z) (question_text : str)
    (answers : list str) :
  ∃ header,
    question_body question_num question_text answers
    = header ++ concat (map (λ answer, nl ++ answer ++ nl) answers).
Proof. unfold question_body. eexists. apply foldl_append_choices. Qed.

(** Every choice is in the message text of its question, in full. *)
Lemma question_body_contains (question_num : Z) (question_text : str)
    (answers : list str) (answer : str) :
  answer ∈ answers →
  ∃ before after,
    question_body question_num question_text answers = before ++ answer ++ after.
Proof.
  intros Hin. apply list_elem_of_split in Hin as (l1 & l2 & ->).
  destruct (question_body_app question_num question_text (l1 ++ answer :: l2))
    as [header ->].
  rewrite map_app, concat_app. simpl.
  eexists (header ++ concat (map _ l1) ++ nl), (nl ++ concat (map _ l2)).
  by rewrite <- !app_assoc.
Qed.

(** C8.  When a question is shown, the button of each choice [c] is
    labelled [c] itself if [c] has at most 64 code points and the first 61
    code points of [c] followed by three dots otherwise, and the message
    text contains [c] in full either way. *)
Theorem choice_button_label (questions_data : list Question)
    (question_num : Z) (mode : str) (σ : FSMData) (question_data : Question)
    (idx : nat) (c : str) :
  truthy (get_question_by_number questions_data question_num) = Some question_data →
  get_text question_data (get_question_key question_num) ≠ [] →
  get_answers question_data !! idx = Some c →
  ∃ body keyboard button,
    show_question questions_data question_num mode σ
    = (Ok (), σ, [edit_text body (Some keyboard) HTML])
    ∧ keyboard !! idx = Some [button]
    ∧ ((length c ≤ 64)%nat → text button = c)
    ∧ ((64 < length c)%nat → text button = take 61 c ++ lit "...")
    ∧ ∃ before after, body = before ++ c ++ after.
Proof.
  intros Hq Htext Hc.
  assert (Hanswers : get_answers question_data ≠ []).
  { intros Hnil. by rewrite Hnil in Hc. }
  eexists _, _, _. split; [by apply show_question_ok|].
  split; [|split; [|split]].
  - unfold create_answer_keyboard.
    rewrite lookup_app_l by (rewrite length_imap; by eapply lookup_lt_Some).
    rewrite list_lookup_imap, Hc. reflexivity.
  - intros Hlen. simpl. unfold button_text.
    by destruct (Nat.leb_spec (length c) 64); [|lia].
  - intros Hlen. simpl. unfold button_text.
    by destruct (Nat.leb_spec (length c) 64); [lia|].
  - apply question_body_contains. by eapply list_elem_of_lookup_2.
Qed.

Lemma choice_button_label_witness :
  ∃ body keyboard button,
    show_question bank_long 1 continuous ∅
    = (Ok (), ∅, [edit_text body (Some keyboard) HTML])
    ∧ keyboard !! 1%nat = Some [button]
    ∧ ((length (replicate 4000 1072%N) ≤ 64)%nat
       → text button = replicate 4000 1072%N)
    ∧ ((64 < length (replicate 4000 1072%N))%nat
       → text button = take 61 (replicate 4000 1072%N) ++ lit "...")
    ∧ ∃ before after, body = before ++ replicate 4000 1072%N ++ after.
Proof.
  apply (choice_button_label bank_long 1 continuous ∅ question_long 1
           (replicate 4000 1072%N)).
  - vm_compute; reflexivity.
  - vm_compute; discriminate.
  - vm_compute; reflexivity.
Defined.

(** The scenario of the specification: a choice of 70 code points. *)
Example button_text_70 :
  button_text (replicate 70 1072%N) = replicate 61 1072%N ++ lit "..."
  ∧ button_text (replicate 64 1072%N) = replicate 64 1072%N.
Proof. compute_done. Qed.

(** ** The question-selection screen *)

(** C9 (amended).  Whatever the bank, the question-selection screen has
    exactly 60 numbered pick buttons, in ascending order 1..60, five per
    row in twelve rows, each with the token [select_q_<number>], followed
    by one last row holding only the return-to-menu button: the keyboard is
    built from the constant 60 and never reads the bank. *)
Theorem selection_keyboard_fixed_60 :
  create_question_selection_keyboard = spec_selection_keyboard 60
  ∧ concat (take 12 create_question_selection_keyboard)
    = map select_button (seq 1 60)
  ∧ Forall (λ row, length row = 5%nat) (take 12 create_question_selection_keyboard)
  ∧ drop 12 create_question_selection_keyboard = [[back_button]]
  ∧ ∀ (questions_data : list Question) (σ : FSMData),
      dp_callback_query questions_data (lit "mode_select") σ
      = (Ok (), σ,
         [ edit_text MSG_CHOOSE_NUMBER (Some (spec_selection_keyboard 60)) None;
           callback_answer None ]).
Proof.
  split; [compute_done|]. split; [compute_done|].
  split; [compute_done|]. split; [compute_done|].
  intros questions_data σ. by vm_compute.
Qed.

(** C9, as stated, fails for a bank of another size: for the bank of one
    question the screen still has 60 pick buttons, not one. *)
Lemma selection_keyboard_counterexample :
  length bank1 = 1%nat
  ∧ create_question_selection_keyboard ≠ spec_selection_keyboard (length bank1)
  ∧ length (concat (take 12 create_question_selection_keyboard)) = 60%nat.
Proof. compute_done. Qed.

(** ** Malformed records *)

(** C10 (amended).  For every question number of the bank whose record is
    not the empty dict and either lacks the [question<n>] text (or has it
    empty) or has no choices, showing the question replaces the screen by
    the load-error message, with no buttons, and does nothing else: no
    further call, no change of the session. *)
Theorem malformed_question_load_error (questions_data : list Question)
    (question_num : Z) (mode : str) (σ : FSMData) (question_data : Question) :
  get_question_by_number questions_data question_num = Some question_data →
  is_empty_dict question_data = false →
  (text_fields question_data !! get_question_key question_num = None
   ∨ text_fields question_data !! get_question_key question_num = Some [])
  ∨ get_answers question_data = [] →
  show_question questions_data question_num mode σ
  = (Ok (), σ, [edit_text MSG_LOAD_ERROR None None]).
Proof.
  intros Hq Hdict Hbad. unfold show_question, truthy. rewrite Hq, Hdict.
  destruct Hbad as [Htext|Hanswers].
  - assert (Hnil : get_text question_data (get_question_key question_num) = []).
    { unfold get_text. by destruct Htext as [-> | ->]. }
    rewrite Hnil. by rewrite bool_decide_eq_true_2.
  - rewrite Hanswers, (bool_decide_eq_true_2 ([] = [])) by done.
    by rewrite orb_true_r.
Qed.

Lemma malformed_question_load_error_witness :
  show_question [ {| text_fields := {[ lit "correct_answer" := lit "4" ]};
                     answers_field := Some [lit "4"; lit "5"] |} ]
    1 select ∅
  = (Ok (), ∅, [edit_text MSG_LOAD_ERROR None None]).
Proof.
  eapply (malformed_question_load_error _ 1 select ∅).
  - vm_compute; reflexivity.
  - vm_compute; reflexivity.
  - left; left. vm_compute; reflexivity.
Defined.

(** C10, as stated, fails on the empty dict: the record of question 1 lacks
    the [question1] text, yet the screen shows the not-found message, not
    the load-error message. *)
Lemma empty_dict_counterexample :
  get_question_by_number bank_empty_dict 1
  = Some {| text_fields := ∅; answers_field := None |}
  ∧ (∅ : gmap str str) !! get_question_key 1 = None
  ∧ show_question bank_empty_dict 1 select ∅
    = (Ok (), ∅, [edit_text MSG_NOT_FOUND None None])
  ∧ show_question bank_empty_dict 1 select ∅
    ≠ (Ok (), ∅, [edit_text MSG_LOAD_ERROR None None]).
Proof. compute_done. Qed.


(** * Further properties of the handlers *)

(** ** Looking a question up *)


Lemma get_question_by_number_outside (questions_data : list Question)
    (question_num : Z) :
  question_num < 1 ∨ Z.of_nat (length questions_data) < question_num →
  get_question_by_number questions_data question_num = None.
Proof.
  unfold get_question_by_number. intros Hrange.
  destruct (Z.leb_spec 1 question_num),
           (Z.leb_spec question_num (Z.of_nat (length questions_data)));
    simpl; try done; lia.
Qed.

(** X1.  [get_question_by_number] returns a record exactly for the numbers
    1..N, and then it is the record at position [question_num - 1] of the
    bank; for every other number, zero and the negative ones included, it
    returns [None] and never indexes the bank from the end. *)
Theorem get_question_by_number_bounds (questions_data : list Question)
    (question_num : Z) :
  (∀ question_data,
     get_question_by_number questions_data question_num = Some question_data
     ↔ 1 ≤ question_num ≤ Z.of_nat (length questions_data)
       ∧ questions_data !! Z.to_nat (question_num - 1) = Some question_data)
  ∧ (get_question_by_number questions_data question_num = None
     ↔ question_num < 1 ∨ Z.of_nat (length questions_data) < question_num).
Proof.
  unfold get_question_by_number.
  destruct (Z.leb_spec 1 question_num) as [Hlo|Hlo],
           (Z.leb_spec question_num (Z.of_nat (length questions_data)))
             as [Hhi|Hhi]; simpl.
  - split.
    + intros question_data. split; [by intros ->|by intros [_ ?]].
    + split; [|lia]. intros Hnone. apply lookup_ge_None in Hnone. lia.
  - split; [|by split; [right|]]. intros question_data. split; [done|lia].
  - split; [|by split; [left|]]. intros question_data. split; [done|lia].
  - split; [|by split; [left|]]. intros question_data. split; [done|lia].
Qed.

(** X2.  The keys [question<n>] of distinct numbers are distinct, so the
    text of one question is never read under the key of another. *)
Theorem get_question_key_inj (n m : Z) :
  get_question_key n = get_question_key m → n = m.
Proof.
  unfold get_question_key. intros Hkey. apply app_inv_head in Hkey.
  pose proof (int_str_of_int n) as Hn. rewrite Hkey, int_str_of_int in Hn.
  by inversion Hn.
Qed.

Lemma get_question_key_inj_witness : (7 : Z) = 7.
Proof. apply (get_question_key_inj 7 7). reflexivity. Defined.

(** ** Showing a question *)

(** X3.  Whatever the number, the mode and the session, [show_question]
    makes exactly one call on the transport, an edit of the current
    message, leaves the session as it is and does not raise; the message
    has a keyboard only when it is the question itself. *)
Theorem show_question_single_edit (questions_data : list Question)
    (question_num : Z) (mode : str) (σ : FSMData) :
  ∃ body keyboard parse_mode,
    show_question questions_data question_num mode σ
    = (Ok (), σ, [edit_text body keyboard parse_mode])
    ∧ (keyboard = None ∧ (body = MSG_NOT_FOUND ∨ body = MSG_LOAD_ERROR)
       ∨ ∃ question_data,
           truthy (get_question_by_number questions_data question_num)
             = Some question_data
           ∧ keyboard = Some (create_answer_keyboard (get_answers question_data)
                                question_num mode)).
Proof.
  unfold show_question.
  destruct (truthy _) as [question_data|] eqn:Hq.
  - destruct (_ || _).
    + eexists _, _, _. split; [done|]. left. split; [done|by right].
    + eexists _, _, _. split; [done|]. right. by exists question_data.
  - eexists _, _, _. split; [done|]. left. split; [done|by left].
Qed.

(** ** Routing the tokens the bot renders *)

(** Pressing the pick button of number [num] is routed to
    [select_question], which reads [num] back from the token, records it in
    the session together with the select mode, and runs [show_question]
    for it in select mode before acknowledging the press. *)
Lemma pick_token_roundtrip (questions_data : list Question) (num : nat)
    (σ : FSMData) :
  let σ' := <["current_question" := DInt (Z.of_nat num)]>
              (<["mode" := DStr select]> σ) in
  dp_callback_query questions_data (callback_data (select_button num)) σ
  = (Ok (), σ',
     events_of (show_question questions_data (Z.of_nat num) select σ')
     ++ [callback_answer None]).
Proof.
  intros σ'. unfold dp_callback_query.
  rewrite !bool_decide_eq_false_2
    by (intros H; vm_compute in H; discriminate H).
  replace (Py.startswith (lit "select_q_") (callback_data (select_button num)))
    with true by reflexivity.
  unfold select_question.
  change (callback_data (select_button num))
    with (lit "select" ++ underscore :: (lit "q" ++ underscore ::
            Py.str_of_int (Z.of_nat num))).
  rewrite !split_app_sep by compute_done.
  rewrite split_no_sep by apply str_of_int_no_underscore.
  change (Py.index _ (-1)) with (Ok (A:=str) (Py.str_of_int (Z.of_nat num))).
  replace (Ok (Py.str_of_int (Z.of_nat num)) ≫= Py.int)
    with (Ok (Z.of_nat num)) by (symmetry; apply int_str_of_int).
  rewrite run_lift_ok, run_update_data. simpl. fold σ'.
  destruct (show_question_one_call questions_data (Z.of_nat num) select σ')
    as [screen Hscreen].
  unfold mbind, M_bind. by rewrite Hscreen.
Qed.

(** X5.  A rendered answer token, whatever its fields, is routed to
    [handle_answer]: no earlier filter of the router takes it. *)
Theorem answer_token_routed (questions_data : list Question)
    (question_num idx : Z) (mode : str) :
  dp_callback_query questions_data (answer_token question_num idx mode)
  = handle_answer questions_data (answer_token question_num idx mode).
Proof.
  unfold dp_callback_query.
  rewrite !bool_decide_eq_false_2 by (intros H; discriminate H).
  reflexivity.
Qed.

(** X6.  Every keyboard the bot attaches to a question, to the selection
    screen or to a result ends with the return-to-menu row, and pressing
    that button, from any session, empties the session and shows the mode
    menu. *)
Theorem return_to_menu_everywhere (questions_data : list Question)
    (σ : FSMData) :
  (∀ answers question_num mode,
     last (create_answer_keyboard answers question_num mode) = Some [back_button])
  ∧ last create_question_selection_keyboard = Some [back_button]
  ∧ last select_result_keyboard = Some [back_button]
  ∧ dp_callback_query questions_data (callback_data back_button) σ
    = (Ok (), ∅,
       [ edit_text MSG_CHOOSE_MODE (Some create_main_menu_keyboard) None;
         callback_answer None ]).
Proof.
  split; [|split; [|split]].
  - intros answers question_num mode. unfold create_answer_keyboard.
    by rewrite last_snoc.
  - by vm_compute.
  - by vm_compute.
  - by vm_compute.
Qed.

(** ** Answer tokens that cannot be served *)

(** X7.  A rendered answer token whose choice index is at or past the end
    of the question's choice list (a button of a keyboard that no longer
    matches the bank) gets the error notice on the press and nothing else:
    the answer is not judged, no message is edited or sent and the session
    is left as it is. *)
Theorem choice_index_past_end (questions_data : list Question) (σ : FSMData)
    (question_num answer_idx : Z) (mode : str) (question_data : Question) :
  valid_mode mode →
  truthy (get_question_by_number questions_data question_num) = Some question_data →
  Z.of_nat (length (get_answers question_data)) ≤ answer_idx →
  handle_answer questions_data (answer_token question_num answer_idx mode) σ
  = (Ok (), σ, [callback_answer (Some MSG_ERROR)])
  ∧ ¬ judged_correct
        (handle_answer questions_data (answer_token question_num answer_idx mode) σ).
Proof.
  intros Hmode Hq Hidx.
  assert (Hrun : handle_answer questions_data
                   (answer_token question_num answer_idx mode) σ
                 = (Ok (), σ, [callback_answer (Some MSG_ERROR)])).
  { eapply answer_index_too_large; [|done..].
    by apply answer_args_token, valid_mode_no_underscore. }
  split; [done|]. intros (kb & pm & Hin). rewrite Hrun in Hin.
  unfold events_of in Hin; simpl in Hin.
  apply elem_of_cons in Hin as [Hin|Hin]; [by inversion Hin|].
  by apply elem_of_nil in Hin.
Qed.

Lemma choice_index_past_end_witness :
  handle_answer bank1 (answer_token 1 2 continuous) ∅
  = (Ok (), ∅, [callback_answer (Some MSG_ERROR)])
  ∧ ¬ judged_correct (handle_answer bank1 (answer_token 1 2 continuous) ∅).
Proof.
  apply (choice_index_past_end bank1 ∅ 1 2 continuous question1).
  - left; reflexivity.
  - vm_compute; reflexivity.
  - vm_compute; discriminate.
Defined.

(** X8.  An answer token whose question number is outside 1..N gets the
    error notice on the press and nothing else: no message is edited or
    sent and the session is left as it is. *)
Theorem answer_unknown_question (questions_data : list Question) (data : str)
    (σ : FSMData) (question_num answer_idx : Z) (mode : str) :
  answer_args data = Ok (question_num, answer_idx, mode) →
  question_num < 1 ∨ Z.of_nat (length questions_data) < question_num →
  handle_answer questions_data data σ
  = (Ok (), σ, [callback_answer (Some MSG_ERROR)]).
Proof.
  intros Hargs Hrange. unfold handle_answer.
  rewrite Hargs, run_lift_ok. simpl.
  replace (get_question_by_number questions_data question_num) with (@None Question);
    [done|].
  symmetry. by apply get_question_by_number_outside.
Qed.

Lemma answer_unknown_question_witness :
  handle_answer bank1 (lit "answer_0_0_select") ∅
  = (Ok (), ∅, [callback_answer (Some MSG_ERROR)]).
Proof.
  apply (answer_unknown_question bank1 (lit "answer_0_0_select") ∅ 0 0 select).
  - vm_compute; reflexivity.
  - left. lia.
Defined.

Lemma index_beyond {A} (l : list A) (i : Z) :
  Z.of_nat (length l) ≤ i → Py.index l i = Raise IndexError.
Proof.
  intros Hi. unfold Py.index.
  destruct (Z.ltb_spec i 0); [lia|].
  destruct (Z.ltb_spec i (Z.of_nat (length l))); [lia|].
  by rewrite andb_false_r.
Qed.

(** X9.  A token with fewer than four underscore-separated fields makes
    [handle_answer] raise before it calls the transport or touches the
    session: the user gets no notice and the press is never acknowledged. *)
Theorem answer_token_too_short (questions_data : list Question) (data : str)
    (σ : FSMData) :
  (length (Py.split underscore data) < 4)%nat →
  ∃ e, handle_answer questions_data data σ = (Raise e, σ, []).
Proof.
  intros Hlen.
  assert (Hargs : ∃ e, answer_args data = Raise e).
  { unfold answer_args.
    destruct (Py.index (Py.split underscore data) 1 ≫= Py.int) as [n|e];
      [|by exists e].
    destruct (Py.index (Py.split underscore data) 2 ≫= Py.int) as [i|e];
      [|by exists e].
    exists IndexError. cbn. rewrite index_beyond by lia. done. }
  destruct Hargs as [e He]. exists e.
  unfold handle_answer. by rewrite He.
Qed.

Lemma answer_token_too_short_witness :
  ∃ e, handle_answer bank1 (lit "answer_1_0") ∅ = (Raise e, ∅, []).
Proof.
  apply (answer_token_too_short bank1 (lit "answer_1_0") ∅).
  vm_compute. lia.
Defined.

(** X10.  Answer tokens are unambiguous: two tokens rendered for the bot's
    modes are the same text only if they carry the same question number,
    the same choice index and the same mode. *)
Theorem answer_token_inj (question_num idx question_num' idx' : Z)
    (mode mode' : str) :
  valid_mode mode → valid_mode mode' →
  answer_token question_num idx mode = answer_token question_num' idx' mode' →
  question_num = question_num' ∧ idx = idx' ∧ mode = mode'.
Proof.
  intros Hmode Hmode' Htoken.
  pose proof (answer_args_token question_num idx mode
                (valid_mode_no_underscore _ Hmode)) as H1.
  pose proof (answer_args_token question_num' idx' mode'
                (valid_mode_no_underscore _ Hmode')) as H2.
  rewrite Htoken, H2 in H1. by inversion H1.
Qed.

Lemma answer_token_inj_witness :
  (3 : Z) = 3 ∧ (1 : Z) = 1 ∧ select = select.
Proof.
  apply (answer_token_inj 3 1 3 1 select select).
  - right; reflexivity.
  - right; reflexivity.
  - reflexivity.
Defined.

(** ** Platform limits *)

Lemma button_text_length (answer : str) : (length (button_text answer) ≤ 64)%nat.
Proof.
  unfold button_text. destruct (Nat.leb_spec (length answer) 64); [done|].
  rewrite length_app, length_take.
  replace (length (lit "...")) with 3%nat by reflexivity. lia.
Qed.

(** X11.  No button of an answer keyboard has a label longer than 64 code
    points, however long the choices are, and a choice is shortened on its
    button exactly when it is longer than 64. *)
Theorem answer_keyboard_labels_fit (answers : list str) (question_num : Z)
    (mode : str) :
  Forall (Forall (λ button, (length (text button) ≤ 64)%nat))
         (create_answer_keyboard answers question_num mode)
  ∧ ∀ answer, button_text answer = answer ↔ (length answer ≤ 64)%nat.
Proof.
  split.
  - unfold create_answer_keyboard. apply Forall_app. split.
    + apply Forall_forall. intros row Hrow.
      apply list_elem_of_lookup in Hrow as [idx Hrow].
      rewrite list_lookup_imap in Hrow.
      destruct (answers !! idx) as [answer|]; [|done].
      simpl in Hrow. injection Hrow as <-.
      apply Forall_cons. split; [apply button_text_length|apply Forall_nil_2].
    + apply Forall_cons. split; [|apply Forall_nil_2].
      apply Forall_cons. split; [|apply Forall_nil_2].
      apply Nat.leb_le. reflexivity.
  - intros answer. split.
    + intros Heq. rewrite <- Heq. apply button_text_length.
    + intros Hlen. unfold button_text.
      by destruct (Nat.leb_spec (length answer) 64); [|lia].
Qed.

(** X12.  Whatever the result text and the keyboard, [edit_or_split] never
    puts more than 4000 code points into the edited message, sends at most
    one further message, which takes all the rest uncut (so it is longer
    than 4000 when the text is longer than 8000), and leaves the session as
    it is. *)
Theorem edit_or_split_bounds (response_text : str)
    (keyboard : InlineKeyboardMarkup) (σ : FSMData) :
  ∃ part1 more,
    edit_or_split response_text keyboard σ
    = (Ok (), σ, edit_text part1 (Some keyboard) HTML :: more)
    ∧ (length part1 ≤ 4000)%nat
    ∧ (more = [] ∧ part1 = response_text
       ∨ ∃ part2, more = [message_answer part2 None HTML]
                  ∧ part1 ++ part2 = response_text
                  ∧ length part2 = (length response_text - 4000)%nat
                  ∧ (0 < length part2)%nat).
Proof.
  rewrite edit_or_split_run.
  destruct (Nat.ltb_spec 4000 (length response_text)) as [Hlong|Hshort].
  - eexists _, _. split; [done|]. split; [rewrite length_take; lia|].
    right. eexists. split; [done|].
    split; [apply take_drop|]. rewrite length_drop. lia.
  - eexists _, _. split; [done|]. split; [done|]. by left.
Qed.

(** ** What the handlers do to the session *)


(** ** Picking a question *)





(** X15.  Choosing the continuous mode, from any session, records question
    1 and the continuous mode, runs [show_question] for question 1 and
    acknowledges the press; on an empty bank the screen is the not-found
    message. *)
Theorem start_continuous (questions_data : list Question) (σ : FSMData) :
  let σ' := <["current_question" := DInt 1]> (<["mode" := DStr continuous]> σ) in
  dp_callback_query questions_data (lit "mode_continuous") σ
  = (Ok (), σ',
     events_of (show_question questions_data 1 continuous σ')
     ++ [callback_answer None])
  ∧ (questions_data = [] →
     dp_callback_query questions_data (lit "mode_continuous") σ
     = (Ok (), σ', [edit_text MSG_NOT_FOUND None None; callback_answer None])).
Proof.
  intros σ'.
  assert (Hrun : dp_callback_query questions_data (lit "mode_continuous") σ
                 = (Ok (), σ',
                    events_of (show_question questions_data 1 continuous σ')
                    ++ [callback_answer None])).
  { unfold dp_callback_query.
    rewrite !bool_decide_eq_false_2 by (intros H; discriminate H).
    rewrite bool_decide_eq_true_2 by reflexivity.
    unfold mode_continuous. rewrite run_update_data. simpl. fold σ'.
    destruct (show_question_one_call questions_data 1 continuous σ')
      as [screen Hscreen].
    unfold mbind, M_bind. by rewrite Hscreen. }
  split; [done|]. intros ->. rewrite Hrun.
  by rewrite show_question_not_found by (right; simpl; lia).
Qed.

(** X4.  What a pick button does.  Its token is routed to
    [select_question], which reads the number back from it, records the
    number and the select mode in the session and runs [show_question].
    For a number of the bank with a well-formed record, the screen is that
    question with an answer keyboard whose tokens carry the select mode.
    For a number beyond the bank (the selection screen always offers
    1..60), the screen is the not-found message. *)
Theorem pick_button_pressed (questions_data : list Question) (num : nat)
    (σ : FSMData) :
  let σ' := <["current_question" := DInt (Z.of_nat num)]>
              (<["mode" := DStr select]> σ) in
  dp_callback_query questions_data (callback_data (select_button num)) σ
  = (Ok (), σ',
     events_of (show_question questions_data (Z.of_nat num) select σ')
     ++ [callback_answer None])
  ∧ (∀ question_data,
     truthy (get_question_by_number questions_data (Z.of_nat num))
       = Some question_data →
     get_text question_data (get_question_key (Z.of_nat num)) ≠ [] →
     get_answers question_data ≠ [] →
     dp_callback_query questions_data (callback_data (select_button num)) σ
     = (Ok (), σ',
        [ edit_text
            (question_body (Z.of_nat num)
               (get_text question_data (get_question_key (Z.of_nat num)))
               (get_answers question_data))
            (Some (create_answer_keyboard (get_answers question_data)
                     (Z.of_nat num) select))
            HTML;
          callback_answer None ]))
  ∧ ((length questions_data < num)%nat →
     dp_callback_query questions_data (callback_data (select_button num)) σ
     = (Ok (), σ', [edit_text MSG_NOT_FOUND None None; callback_answer None])).
Proof.
  intros σ'. split; [apply pick_token_roundtrip|]. split.
  - intros question_data Hq Htext Hanswers. rewrite pick_token_roundtrip.
    fold σ'. by rewrite (show_question_ok _ _ _ _ question_data).
  - intros Hnum. rewrite pick_token_roundtrip. fold σ'.
    by rewrite show_question_not_found by lia.
Qed.
